(** * PMG1 power modes example: a shallow embedding of [main.c]

    The program counts presses of the user button in an interrupt handler
    and, from its main loop, puts the CPU into Sleep or Deep Sleep
    depending on that count.  The power-management callbacks blink the
    user LED before each transition.

    The embedding threads an explicit machine state through every
    function.  Calls into the peripheral driver library are recorded in a
    trace, oldest first, so that what the code does to the LED pin can be
    read back.  [DEBUG_PRINT] is [0U] in the source, so every block
    guarded by [#if DEBUG_PRINT] is compiled out and does not appear
    here. *)

From Stdlib Require Import ZArith List Bool Lia.
Import ListNotations.
Local Open Scope Z_scope.

(** ** Integer types *)

Module CInt.

(** Conversion to [uint8_t]: reduction modulo 2^8. *)
Definition to_uint8 (v : Z) : Z := v mod 256.

(** Conversion to [uint32_t]: reduction modulo 2^32. *)
Definition to_uint32 (v : Z) : Z := v mod 4294967296.

(** Conversion to [int16_t], as the ARM compilers do it: reduction
    modulo 2^16 into [-32768, 32767]. *)
Definition to_int16 (v : Z) : Z := (v + 32768) mod 65536 - 32768.

Definition INT16_MAX : Z := 32767.
Definition INT16_MIN : Z := -32768.

Definition is_int16 (v : Z) : Prop := INT16_MIN <= v <= INT16_MAX.
Definition is_uint8 (v : Z) : Prop := 0 <= v <= 255.

End CInt.
Import CInt.

(** ** Macros of [main.c] *)

Definition LED_ON : Z := 0.
Definition LED_OFF : Z := 1.
Definition SLEEP_SWITCH_PRESS : Z := 1.
Definition DEEP_SLEEP_SWITCH_PRESS : Z := 3.
Definition BLINK_TIME_MS : Z := 200.

(** ** What the driver library declares

    [cy_en_syspm_status_t] is an enumeration of the driver library; the
    program uses two of its enumerators. *)

Inductive cy_en_syspm_status_t : Type :=
| CY_SYSPM_SUCCESS
| CY_SYSPM_FAIL.

(** The enumerators of [cy_en_syspm_callback_mode_t] are declared in a
    header of the driver library; their numeric values are taken as a
    parameter.  [callback_function] receives the mode as a [uint8_t] and
    uses the four enumerators as [case] labels. *)

Record callback_modes : Type := mkModes {
  CY_SYSPM_CHECK_READY : Z;
  CY_SYSPM_CHECK_FAIL : Z;
  CY_SYSPM_BEFORE_TRANSITION : Z;
  CY_SYSPM_AFTER_TRANSITION : Z
}.

(** A [switch] with two equal [case] labels does not compile. *)
Definition labels_distinct (K : callback_modes) : Prop :=
  CY_SYSPM_CHECK_READY K <> CY_SYSPM_CHECK_FAIL K /\
  CY_SYSPM_CHECK_READY K <> CY_SYSPM_BEFORE_TRANSITION K /\
  CY_SYSPM_CHECK_READY K <> CY_SYSPM_AFTER_TRANSITION K /\
  CY_SYSPM_CHECK_FAIL K <> CY_SYSPM_BEFORE_TRANSITION K /\
  CY_SYSPM_CHECK_FAIL K <> CY_SYSPM_AFTER_TRANSITION K /\
  CY_SYSPM_BEFORE_TRANSITION K <> CY_SYSPM_AFTER_TRANSITION K.

(** The enumerators survive the conversion to [uint8_t] at the call of
    [callback_function]. *)
Definition labels_fit_uint8 (K : callback_modes) : Prop :=
  is_uint8 (CY_SYSPM_CHECK_READY K) /\
  is_uint8 (CY_SYSPM_CHECK_FAIL K) /\
  is_uint8 (CY_SYSPM_BEFORE_TRANSITION K) /\
  is_uint8 (CY_SYSPM_AFTER_TRANSITION K).

(** The values the driver library's header gives the enumerators. *)
Definition pdl_modes : callback_modes :=
  {| CY_SYSPM_CHECK_READY := 1;
     CY_SYSPM_CHECK_FAIL := 2;
     CY_SYSPM_BEFORE_TRANSITION := 4;
     CY_SYSPM_AFTER_TRANSITION := 8 |}.

(** ** Machine state *)

(** Calls into the driver library that the program makes on its pins and
    on the delay service. *)
Inductive event : Type :=
| GpioWrite (value : Z)   (* Cy_GPIO_Write on the user LED pin *)
| Delay (ms : Z)          (* Cy_SysLib_Delay *)
| ClearInterrupt.         (* Cy_GPIO_ClearInterrupt on the user button pin *)

Record state : Type := mkState {
  SwitchPressCount : Z;     (* volatile int16_t SwitchPressCount *)
  user_led : Z;             (* level driven on CYBSP_USER_LED *)
  btn_intr_pending : bool;  (* pending interrupt of CYBSP_USER_BTN *)
  trace : list event        (* driver calls made so far, oldest first *)
}.

Definition set_SwitchPressCount (v : Z) (st : state) : state :=
  {| SwitchPressCount := v;
     user_led := user_led st;
     btn_intr_pending := btn_intr_pending st;
     trace := trace st |}.

Definition log (e : event) (st : state) : state :=
  {| SwitchPressCount := SwitchPressCount st;
     user_led := user_led st;
     btn_intr_pending := btn_intr_pending st;
     trace := trace st ++ [e] |}.

(** [Cy_GPIO_Write(CYBSP_USER_LED_PORT, CYBSP_USER_LED_NUM, value)] *)
Definition Cy_GPIO_Write (value : Z) (st : state) : state :=
  log (GpioWrite value)
      {| SwitchPressCount := SwitchPressCount st;
         user_led := value;
         btn_intr_pending := btn_intr_pending st;
         trace := trace st |}.

(** [Cy_SysLib_Delay(ms)] *)
Definition Cy_SysLib_Delay (ms : Z) (st : state) : state :=
  log (Delay ms) st.

(** [Cy_GPIO_ClearInterrupt(CYBSP_USER_BTN_PORT, CYBSP_USER_BTN_NUM)] *)
Definition Cy_GPIO_ClearInterrupt (st : state) : state :=
  log ClearInterrupt
      {| SwitchPressCount := SwitchPressCount st;
         user_led := user_led st;
         btn_intr_pending := false;
         trace := trace st |}.

(** The state when [main] starts: the counter holds its initialiser, no
    driver call has been made yet; the LED is taken to be off. *)
Definition initial_state : state :=
  {| SwitchPressCount := 0;
     user_led := LED_OFF;
     btn_intr_pending := false;
     trace := [] |}.

(** ** [led_blink] *)

(** The body of the [for] loop of [led_blink]. *)
Definition blink_cycle (blink_time : Z) (st : state) : state :=
  Cy_SysLib_Delay blink_time
    (Cy_GPIO_Write LED_ON
      (Cy_SysLib_Delay blink_time
        (Cy_GPIO_Write LED_OFF st))).

(** The [for] loop of [led_blink], from the test of its condition.
    [count] is a [uint8_t]: [count++] wraps at 256.  In
    [count < num_toggles] the counter is converted to the unsigned
    32-bit type of [num_toggles], which keeps its value.  [None] means
    that [fuel] tests of the condition did not reach the exit. *)
Fixpoint led_blink_loop (fuel : nat) (blink_time num_toggles count : Z)
    (st : state) : option state :=
  match fuel with
  | O => None
  | S fuel' =>
      if count <? num_toggles
      then led_blink_loop fuel' blink_time num_toggles
             (to_uint8 (count + 1)) (blink_cycle blink_time st)
      else Some st
  end.

Definition led_blink (fuel : nat) (blink_time num_toggles : Z) (st : state)
    : option state :=
  match led_blink_loop fuel blink_time num_toggles 0 st with
  | Some st' => Some (Cy_GPIO_Write LED_OFF st')
  | None => None
  end.

(** ** The power-management callbacks *)

(** [cy_stc_syspm_callback_params_t]: two pointers, both [NULL] in the
    program's only instance. *)
Record cy_stc_syspm_callback_params_t : Type := mkParams {
  base : option Z;
  context : option Z
}.

Definition callbackParams : cy_stc_syspm_callback_params_t :=
  {| base := None; context := None |}.

(** [callback_function(uint8_t mode, uint8_t led_blink_count)].  Both
    arguments are converted to [uint8_t] at the call.  [ret_val] starts
    as [CY_SYSPM_FAIL] and every branch of the [switch] assigns it. *)
Definition callback_function (K : callback_modes) (fuel : nat)
    (mode led_blink_count : Z) (st : state)
    : option (cy_en_syspm_status_t * state) :=
  let mode := to_uint8 mode in
  let led_blink_count := to_uint8 led_blink_count in
  if mode =? CY_SYSPM_CHECK_READY K then
    Some (CY_SYSPM_SUCCESS, st)
  else if mode =? CY_SYSPM_CHECK_FAIL K then
    Some (CY_SYSPM_FAIL, st)
  else if mode =? CY_SYSPM_BEFORE_TRANSITION K then
    match led_blink fuel BLINK_TIME_MS led_blink_count st with
    | Some st' => Some (CY_SYSPM_SUCCESS, st')
    | None => None
    end
  else if mode =? CY_SYSPM_AFTER_TRANSITION K then
    Some (CY_SYSPM_SUCCESS, st)
  else
    Some (CY_SYSPM_SUCCESS, st).

Definition sleep_callback (K : callback_modes) (fuel : nat)
    (params : cy_stc_syspm_callback_params_t) (mode : Z) (st : state)
    : option (cy_en_syspm_status_t * state) :=
  callback_function K fuel mode 2 st.

Definition deep_sleep_callback (K : callback_modes) (fuel : nat)
    (params : cy_stc_syspm_callback_params_t) (mode : Z) (st : state)
    : option (cy_en_syspm_status_t * state) :=
  callback_function K fuel mode 3 st.

(** ** The interrupt handler *)

(** [SwitchPressCount++] computes the sum in [int] and converts it back
    to [int16_t]. *)
Definition switch_isr (st : state) : state :=
  Cy_GPIO_ClearInterrupt
    (set_SwitchPressCount (to_int16 (SwitchPressCount st + 1)) st).

(** [n] runs of the handler, one after the other. *)
Definition press (n : nat) (st : state) : state :=
  Nat.iter n switch_isr st.

(** ** The main loop *)

(** The two mode-entry primitives of the driver library, as the main
    loop sees them: calls that return a changed machine state (the status
    they return is discarded by [main]). *)
Record platform : Type := mkPlatform {
  Cy_SysPm_CpuEnterSleep : state -> state;
  Cy_SysPm_CpuEnterDeepSleep : state -> state
}.

(** One iteration of [for (;;)] in [main], with no interrupt taken
    inside it.  Each comparison converts the counter to [unsigned int],
    the type of the macro it is compared with. *)
Definition main_loop_body (P : platform) (st : state) : state :=
  let st := Cy_GPIO_Write LED_ON st in
  if to_uint32 (SwitchPressCount st) =? SLEEP_SWITCH_PRESS then
    Cy_SysPm_CpuEnterSleep P st
  else if to_uint32 (SwitchPressCount st) =? DEEP_SLEEP_SWITCH_PRESS then
    set_SwitchPressCount (to_int16 0) (Cy_SysPm_CpuEnterDeepSleep P st)
  else
    st.

(** The first [n] iterations of the loop. *)
Definition main_loop (P : platform) (n : nat) (st : state) : state :=
  Nat.iter n (main_loop_body P) st.

(** *** Statement by statement, with interrupts

    The same loop cut into its statements, so that the interrupt handler
    can run between any two of them. *)
Inductive main_pc : Type :=
| AtLedOn            (* Cy_GPIO_Write(..., LED_ON) *)
| AtSleepTest        (* if (SwitchPressCount == SLEEP_SWITCH_PRESS) *)
| AtDeepSleepTest    (* else if (SwitchPressCount == DEEP_SLEEP_SWITCH_PRESS) *)
| AtEnterSleep       (* Cy_SysPm_CpuEnterSleep() *)
| AtEnterDeepSleep   (* Cy_SysPm_CpuEnterDeepSleep() *)
| AtResetCount.      (* SwitchPressCount = 0 *)

Record machine : Type := mkMachine {
  pc : main_pc;
  mem : state
}.

Definition main_step (P : platform) (m : machine) : machine :=
  let st := mem m in
  match pc m with
  | AtLedOn =>
      {| pc := AtSleepTest; mem := Cy_GPIO_Write LED_ON st |}
  | AtSleepTest =>
      if to_uint32 (SwitchPressCount st) =? SLEEP_SWITCH_PRESS
      then {| pc := AtEnterSleep; mem := st |}
      else {| pc := AtDeepSleepTest; mem := st |}
  | AtDeepSleepTest =>
      if to_uint32 (SwitchPressCount st) =? DEEP_SLEEP_SWITCH_PRESS
      then {| pc := AtEnterDeepSleep; mem := st |}
      else {| pc := AtLedOn; mem := st |}
  | AtEnterSleep =>
      {| pc := AtLedOn; mem := Cy_SysPm_CpuEnterSleep P st |}
  | AtEnterDeepSleep =>
      {| pc := AtResetCount; mem := Cy_SysPm_CpuEnterDeepSleep P st |}
  | AtResetCount =>
      {| pc := AtLedOn; mem := set_SwitchPressCount (to_int16 0) st |}
  end.

(** What the processor does next: take the button interrupt, or execute
    the next statement of [main]. *)
Inductive action : Type :=
| Interrupt
| MainStep.

Definition exec (P : platform) (a : action) (m : machine) : machine :=
  match a with
  | Interrupt => {| pc := pc m; mem := switch_isr (mem m) |}
  | MainStep => main_step P m
  end.

(** An interleaving is a list of actions, executed from the left. *)
Definition run (P : platform) (sched : list action) (m : machine) : machine :=
  fold_left (fun m a => exec P a m) sched m.

Definition initial_machine : machine :=
  {| pc := AtLedOn; mem := initial_state |}.

(** No interrupt of the interleaving finds the counter at [INT16_MAX]:
    the increment never overflows. *)
Fixpoint overflow_free (P : platform) (sched : list action) (m : machine)
    : bool :=
  match sched with
  | [] => true
  | a :: rest =>
      match a with
      | Interrupt => negb (SwitchPressCount (mem m) =? INT16_MAX)
      | MainStep => true
      end && overflow_free P rest (exec P a m)
  end.

(** The platform leaves the counter alone: inside a mode-entry call the
    counter changes only through the interrupt handler, which the
    interleaving runs as an action of its own. *)
Definition platform_keeps_count (P : platform) : Prop :=
  (forall st, SwitchPressCount (Cy_SysPm_CpuEnterSleep P st)
              = SwitchPressCount st) /\
  (forall st, SwitchPressCount (Cy_SysPm_CpuEnterDeepSleep P st)
              = SwitchPressCount st).

(** *** A platform to run the program on *)

(** Modelled from the spec: the mode-entry primitives of the driver
    library, which are not among the sources.  A primitive calls the
    registered handler at the check-ready checkpoint; when the handler
    reports success it calls it at before-transition, the CPU is
    suspended until a wake event, and the handler is called at
    after-transition.  On a veto the transition is abandoned.  The
    handler's loop gets 257 tests of its condition, enough for every
    8-bit cycle count. *)
Definition enter_low_power
    (handler : nat -> cy_stc_syspm_callback_params_t -> Z -> state ->
               option (cy_en_syspm_status_t * state))
    (K : callback_modes) (st : state) : state :=
  match handler 257%nat callbackParams (CY_SYSPM_CHECK_READY K) st with
  | Some (CY_SYSPM_SUCCESS, st1) =>
      match handler 257%nat callbackParams
              (CY_SYSPM_BEFORE_TRANSITION K) st1 with
      | Some (_, st2) =>
          match handler 257%nat callbackParams
                  (CY_SYSPM_AFTER_TRANSITION K) st2 with
          | Some (_, st3) => st3
          | None => st2
          end
      | None => st1
      end
  | Some (CY_SYSPM_FAIL, st1) => st1
  | None => st
  end.

Definition pdl_platform : platform :=
  {| Cy_SysPm_CpuEnterSleep :=
       enter_low_power (sleep_callback pdl_modes) pdl_modes;
     Cy_SysPm_CpuEnterDeepSleep :=
       enter_low_power (deep_sleep_callback pdl_modes) pdl_modes |}.

(** ** What the specification expects of a call of [led_blink]

    These two definitions follow the words of the specification, not the
    source; [led_blink] is compared with them below. *)

(** [n] repetitions of write-off, delay, write-on, delay. *)
Definition spec_blink_events (blink_time : Z) (n : nat) : list event :=
  concat (repeat [GpioWrite LED_OFF; Delay blink_time;
                  GpioWrite LED_ON; Delay blink_time] n).

(** The state a returning [led_blink] leaves: everything it did is in
    the trace, and the pin is off. *)
Definition spec_blink (blink_time : Z) (n : nat) (st : state) : state :=
  {| SwitchPressCount := SwitchPressCount st;
     user_led := LED_OFF;
     btn_intr_pending := btn_intr_pending st;
     trace := trace st ++ spec_blink_events blink_time n ++ [GpioWrite LED_OFF] |}.

(** ** Auxiliary definitions used in the statements below *)

(** How many delays, and how many writes of a given level, a piece of
    trace holds. *)
Definition count_delays (l : list event) : nat :=
  length (filter (fun e => match e with Delay _ => true | _ => false end) l).

Definition count_writes (value : Z) (l : list event) : nat :=
  length (filter (fun e => match e with
                           | GpioWrite v => v =? value
                           | _ => false
                           end) l).

(** Calling [led_blink] [k] times in a row with the same arguments. *)
Fixpoint led_blink_repeated (k fuel : nat) (blink_time num_toggles : Z)
    (st : state) : option state :=
  match k with
  | O => Some st
  | S k' =>
      match led_blink fuel blink_time num_toggles st with
      | Some st' => led_blink_repeated k' fuel blink_time num_toggles st'
      | None => None
      end
  end.

(** The state reached from [st] after [k] passes through the loop body. *)
Definition after_cycles (blink_time : Z) (k : nat) (st : state) : state :=
  {| SwitchPressCount := SwitchPressCount st;
     user_led := match k with O => user_led st | S _ => LED_ON end;
     btn_intr_pending := btn_intr_pending st;
     trace := trace st ++ spec_blink_events blink_time k |}.

(** The state after [k] calls of [led_blink] that each skip the loop. *)
Definition after_idle_blinks (k : nat) (st : state) : state :=
  {| SwitchPressCount := SwitchPressCount st;
     user_led := match k with O => user_led st | S _ => LED_OFF end;
     btn_intr_pending := btn_intr_pending st;
     trace := trace st ++ repeat (GpioWrite LED_OFF) k |}.

(** The number of interrupts taken in an interleaving. *)
Definition interrupts (sched : list action) : nat :=
  length (filter (fun a => match a with Interrupt => true | MainStep => false end)
                 sched).

(** The time a piece of trace spends in [Cy_SysLib_Delay], in ms. *)
Fixpoint total_delay (l : list event) : Z :=
  match l with
  | [] => 0
  | Delay ms :: rest => ms + total_delay rest
  | _ :: rest => total_delay rest
  end.

(** The state after [n] iterations of the main loop that only switch
    the LED on. *)
Definition idle_iterations (n : nat) (st : state) : state :=
  {| SwitchPressCount := SwitchPressCount st;
     user_led := match n with O => user_led st | S _ => LED_ON end;
     btn_intr_pending := btn_intr_pending st;
     trace := trace st ++ repeat (GpioWrite LED_ON) n |}.

(** The statements of [main] between the write that switches the LED on
    and the return of a mode-entry call. *)
Definition led_expected_on (p : main_pc) : bool :=
  match p with
  | AtSleepTest | AtDeepSleepTest | AtEnterSleep | AtEnterDeepSleep => true
  | AtLedOn | AtResetCount => false
  end.

(** ** The start of [main] *)

(** The two functions registered as power-management callbacks. *)
Inductive handler_id : Type :=
| Sleep_callback
| Deep_sleep_callback.

(** The callback types of the driver library that the program uses. *)
Inductive cy_en_syspm_callback_type_t : Type :=
| CY_SYSPM_SLEEP
| CY_SYSPM_DEEPSLEEP.

(** The fields of [cy_stc_syspm_callback_t] that the program sets to
    something other than [NULL]. *)
Record cy_stc_syspm_callback_t : Type := mkCallback {
  callback : handler_id;
  type : cy_en_syspm_callback_type_t;
  skipMode : Z;
  callbackParams_ptr : cy_stc_syspm_callback_params_t
}.

Definition sleep_cb : cy_stc_syspm_callback_t :=
  {| callback := Sleep_callback;
     type := CY_SYSPM_SLEEP;
     skipMode := 0;
     callbackParams_ptr := callbackParams |}.

Definition deep_sleep_cb : cy_stc_syspm_callback_t :=
  {| callback := Deep_sleep_callback;
     type := CY_SYSPM_DEEPSLEEP;
     skipMode := 0;
     callbackParams_ptr := callbackParams |}.

Definition SWITCH_INTR_PRIORITY : Z := 3.

(** The calls [main] makes before it enters its loop. *)
Inductive startup_call : Type :=
| Call_cybsp_init
| Call_enable_irq
| Call_SysInt_Init (intrPriority : Z)   (* with [switch_isr] as handler *)
| Call_NVIC_EnableIRQ
| Call_RegisterCallback (cb : cy_stc_syspm_callback_t).

(** What the platform answers to the four calls whose result [main]
    tests: whether [cybsp_init] returned [CY_RSLT_SUCCESS], whether
    [Cy_SysInt_Init] returned [CY_SYSINT_SUCCESS], and the booleans
    returned by the two calls of [Cy_SysPm_RegisterCallback]. *)
Record startup_answers : Type := mkAnswers {
  cybsp_init_ok : bool;
  SysInt_Init_ok : bool;
  register_sleep_ok : bool;
  register_deep_sleep_ok : bool
}.

Inductive startup_result : Type :=
| Halted (calls : list startup_call)    (* stopped in [CY_ASSERT] *)
| Started (calls : list startup_call).  (* reached [for (;;)] *)

(** [if (!ok) { CY_ASSERT(CY_ASSERT_FAILED); }] followed by [rest].
    [CY_ASSERT] is a macro of the driver library; [assertions] says
    whether the build has it stop the processor on a zero argument
    ([CY_ASSERT_FAILED] is [0U]) or expand to nothing. *)
Definition assert_or (assertions ok : bool) (calls : list startup_call)
    (rest : startup_result) : startup_result :=
  if negb ok && assertions then Halted calls else rest.

(** [main] up to its loop. *)
Definition main_startup (assertions : bool) (A : startup_answers)
    : startup_result :=
  let calls := [Call_cybsp_init] in
  assert_or assertions (cybsp_init_ok A) calls
    (let calls := calls ++ [Call_enable_irq;
                            Call_SysInt_Init SWITCH_INTR_PRIORITY] in
     assert_or assertions (SysInt_Init_ok A) calls
       (let calls := calls ++ [Call_NVIC_EnableIRQ;
                               Call_RegisterCallback sleep_cb] in
        assert_or assertions (register_sleep_ok A) calls
          (let calls := calls ++ [Call_RegisterCallback deep_sleep_cb] in
           assert_or assertions (register_deep_sleep_ok A) calls
             (Started calls)))).

(** [main]: the start, then the first [n] iterations of the loop.
    [None] when the start stopped in [CY_ASSERT]. *)
Definition main (assertions : bool) (A : startup_answers) (P : platform)
    (n : nat) (st : state) : option state :=
  match main_startup assertions A with
  | Halted _ => None
  | Started _ => Some (main_loop P n st)
  end.

(** The calls of a start in which every call succeeds. *)
Definition full_startup : list startup_call :=
  [Call_cybsp_init; Call_enable_irq; Call_SysInt_Init 3;
   Call_NVIC_EnableIRQ; Call_RegisterCallback sleep_cb;
   Call_RegisterCallback deep_sleep_cb].

(** The call whose failure stops the start, if any: the first of the
    four tested calls that did not succeed. *)
Definition first_failure (A : startup_answers) : option startup_call :=
  if negb (cybsp_init_ok A) then Some Call_cybsp_init
  else if negb (SysInt_Init_ok A)
  then Some (Call_SysInt_Init SWITCH_INTR_PRIORITY)
  else if negb (register_sleep_ok A) then Some (Call_RegisterCallback sleep_cb)
  else if negb (register_deep_sleep_ok A)
  then Some (Call_RegisterCallback deep_sleep_cb)
  else None.

(** Every tested start-up call succeeded. *)
Definition all_ok (A : startup_answers) : bool :=
  cybsp_init_ok A && SysInt_Init_ok A
  && register_sleep_ok A && register_deep_sleep_ok A.

(** The interleaving never executes the assignment [SwitchPressCount = 0]
    that follows the Deep Sleep call: no reset of the counter happens. *)
Fixpoint reset_free (P : platform) (sched : list action) (m : machine)
    : bool :=
  match sched with
  | [] => true
  | a :: rest =>
      match a, pc m with
      | MainStep, AtResetCount => false
      | _, _ => true
      end && reset_free P rest (exec P a m)
  end.

(** * Properties *)

(** ** Integer conversions *)

Lemma to_uint8_range v : is_uint8 (to_uint8 v).
Proof.
  unfold is_uint8, to_uint8.
  pose proof (Z.mod_pos_bound v 256 ltac:(lia)). lia.
Qed.

Lemma to_uint8_small v : is_uint8 v -> to_uint8 v = v.
Proof. unfold is_uint8, to_uint8. intros H. apply Z.mod_small. lia. Qed.

Lemma to_int16_range v : is_int16 (to_int16 v).
Proof.
  unfold is_int16, to_int16, INT16_MIN, INT16_MAX.
  pose proof (Z.mod_pos_bound (v + 32768) 65536 ltac:(lia)). lia.
Qed.

Lemma to_int16_small v : is_int16 v -> to_int16 v = v.
Proof.
  unfold is_int16, to_int16, INT16_MIN, INT16_MAX. intros H.
  rewrite Z.mod_small; lia.
Qed.

Lemma to_uint32_eq_small v k :
  is_int16 v -> 0 <= k <= INT16_MAX -> (to_uint32 v =? k) = (v =? k).
Proof.
  unfold is_int16, to_uint32, INT16_MIN, INT16_MAX. intros Hv Hk.
  destruct (Z_lt_le_dec v 0) as [Hneg | Hpos].
  - replace (v mod 4294967296) with (v + 4294967296).
    + destruct (Z.eqb_spec (v + 4294967296) k), (Z.eqb_spec v k);
        try reflexivity; lia.
    + apply Z.mod_unique with (q := -1); lia.
  - rewrite Z.mod_small by lia. reflexivity.
Qed.


Lemma pdl_modes_distinct : labels_distinct pdl_modes.
Proof. unfold labels_distinct; simpl; lia. Defined.

Lemma pdl_modes_fit : labels_fit_uint8 pdl_modes.
Proof. unfold labels_fit_uint8, is_uint8; simpl; lia. Defined.


Lemma to_int16_succ v : to_int16 (to_int16 v + 1) = to_int16 (v + 1).
Proof.
  unfold to_int16.
  replace ((v + 32768) mod 65536 - 32768 + 1 + 32768)
    with ((v + 32768) mod 65536 + 1) by lia.
  rewrite Z.add_mod_idemp_l by lia.
  replace (v + 32768 + 1) with (v + 1 + 32768) by lia.
  reflexivity.
Qed.

(** ** The loop of [led_blink] *)

Lemma after_cycles_0 blink_time st : after_cycles blink_time 0 st = st.
Proof.
  destruct st; unfold after_cycles, spec_blink_events; simpl.
  now rewrite app_nil_r.
Qed.

Lemma after_cycles_S blink_time k st :
  after_cycles blink_time k (blink_cycle blink_time st)
  = after_cycles blink_time (S k) st.
Proof.
  unfold after_cycles, blink_cycle, Cy_SysLib_Delay, Cy_GPIO_Write, log,
    spec_blink_events.
  simpl. f_equal.
  - now destruct k.
  - now rewrite <- !app_assoc.
Qed.

(** While the counter cannot wrap, the loop runs the body once for each
    remaining value of the counter and then leaves. *)
Lemma led_blink_loop_exits blink_time num_toggles :
  num_toggles <= 255 ->
  forall (k fuel : nat) (count : Z) (st : state),
    0 <= count ->
    count + Z.of_nat k = num_toggles ->
    (k < fuel)%nat ->
    led_blink_loop fuel blink_time num_toggles count st
    = Some (after_cycles blink_time k st).
Proof.
  intros Hmax k. induction k as [| k IH]; intros fuel count st Hc Hk Hf.
  - destruct fuel as [| fuel]; [lia |]. simpl.
    replace (count <? num_toggles) with false
      by (symmetry; apply Z.ltb_ge; lia).
    now rewrite after_cycles_0.
  - destruct fuel as [| fuel]; [lia |]. simpl.
    replace (count <? num_toggles) with true
      by (symmetry; apply Z.ltb_lt; lia).
    rewrite to_uint8_small by (unfold is_uint8; lia).
    rewrite (IH fuel) by lia.
    now rewrite after_cycles_S.
Qed.

(** Once the bound is above every value of the 8-bit counter, the
    condition holds at every test. *)
Lemma led_blink_loop_spins blink_time num_toggles :
  255 < num_toggles ->
  forall (fuel : nat) (count : Z) (st : state),
    is_uint8 count ->
    led_blink_loop fuel blink_time num_toggles count st = None.
Proof.
  intros Hbig fuel. induction fuel as [| fuel IH]; intros count st Hc.
  - reflexivity.
  - simpl. unfold is_uint8 in Hc.
    replace (count <? num_toggles) with true
      by (symmetry; apply Z.ltb_lt; lia).
    apply IH, to_uint8_range.
Qed.

(** A bound that is zero or negative is never above the counter. *)
Lemma led_blink_loop_skips blink_time num_toggles fuel st :
  num_toggles <= 0 ->
  led_blink_loop (S fuel) blink_time num_toggles 0 st = Some st.
Proof.
  intros Hn. simpl.
  replace (0 <? num_toggles) with false by (symmetry; apply Z.ltb_ge; lia).
  reflexivity.
Qed.

(** For a cycle count an 8-bit counter can reach, [led_blink] returns
    and has done what the specification says. *)
Lemma led_blink_returns blink_time num_toggles fuel st :
  0 <= num_toggles <= 255 ->
  (Z.to_nat num_toggles < fuel)%nat ->
  led_blink fuel blink_time num_toggles st
  = Some (spec_blink blink_time (Z.to_nat num_toggles) st).
Proof.
  intros Hn Hf. unfold led_blink.
  rewrite (led_blink_loop_exits blink_time num_toggles (proj2 Hn)
             (Z.to_nat num_toggles) fuel 0 st) by lia.
  unfold spec_blink, after_cycles, Cy_GPIO_Write, log. simpl.
  now rewrite <- app_assoc.
Qed.

Lemma led_blink_never_returns blink_time num_toggles fuel st :
  255 < num_toggles ->
  led_blink fuel blink_time num_toggles st = None.
Proof.
  intros Hbig. unfold led_blink.
  rewrite led_blink_loop_spins; [reflexivity | assumption |].
  unfold is_uint8; lia.
Qed.

Lemma spec_blink_events_delays blink_time n :
  count_delays (spec_blink_events blink_time n) = (2 * n)%nat.
Proof.
  unfold spec_blink_events. induction n as [| n IH]; [reflexivity |].
  cbn [repeat concat]. unfold count_delays in *.
  rewrite filter_app, length_app, IH. simpl. lia.
Qed.

Lemma spec_blink_events_writes blink_time n :
  count_writes LED_OFF (spec_blink_events blink_time n) = n /\
  count_writes LED_ON (spec_blink_events blink_time n) = n.
Proof.
  unfold spec_blink_events. induction n as [| n [IHoff IHon]]; [now split |].
  cbn [repeat concat]. unfold count_writes in *.
  rewrite !filter_app, !length_app, IHoff, IHon. simpl. lia.
Qed.

(** C6 (the code at the failing input): with [num_toggles = 256] the
    8-bit counter never reaches the bound, so however many tests of the
    loop condition are allowed, [led_blink] has not returned; the final
    write that switches the LED off is never made. *)
Theorem led_blink_256_never_returns (fuel : nat) (st : state) :
  led_blink fuel BLINK_TIME_MS 256 st = None.
Proof. apply led_blink_never_returns. lia. Qed.

Lemma led_blink_zero blink_time fuel st :
  led_blink (S fuel) blink_time 0 st = Some (Cy_GPIO_Write LED_OFF st).
Proof.
  unfold led_blink. now rewrite led_blink_loop_skips by lia.
Qed.

Lemma after_idle_blinks_S k st :
  after_idle_blinks k (Cy_GPIO_Write LED_OFF st) = after_idle_blinks (S k) st.
Proof.
  unfold after_idle_blinks, Cy_GPIO_Write, log. simpl. f_equal.
  - now destruct k.
  - now rewrite <- app_assoc.
Qed.

(** C7: a call of [led_blink] with zero cycles skips the loop: its only
    driver call is the write that switches the LED off, with no delay
    and no write that switches it on.  Any number [k] of such calls in a
    row return, add [k] such writes and nothing else to the trace, and
    from the first call on leave the pin off, as a single call does. *)
Theorem led_blink_zero_cycles_idempotent
    (k fuel : nat) (blink_time : Z) (st : state) :
  led_blink (S fuel) blink_time 0 st = Some (Cy_GPIO_Write LED_OFF st) /\
  led_blink_repeated k (S fuel) blink_time 0 st
    = Some (after_idle_blinks k st) /\
  user_led (after_idle_blinks (S k) st) = LED_OFF /\
  user_led (after_idle_blinks (S k) st) = user_led (after_idle_blinks 1 st) /\
  count_delays (repeat (GpioWrite LED_OFF) k) = 0%nat /\
  count_writes LED_ON (repeat (GpioWrite LED_OFF) k) = 0%nat.
Proof.
  split; [apply led_blink_zero |]. split.
  - revert st. induction k as [| k IH]; intros st.
    + simpl. f_equal. destruct st; unfold after_idle_blinks; simpl.
      now rewrite app_nil_r.
    + cbn [led_blink_repeated]. rewrite led_blink_zero, IH.
      now rewrite after_idle_blinks_S.
  - repeat split; try reflexivity.
    + induction k as [| k IH]; [reflexivity | exact IH].
    + induction k as [| k IH]; [reflexivity | exact IH].
Qed.

(** C10: [led_blink] returns exactly when [num_toggles <= 255].  Above
    that the 8-bit counter wraps before it reaches the bound and the loop
    condition holds for ever.  With the cycle counts of the two call
    sites, 2 and 3, it returns. *)
Theorem led_blink_terminates_iff (blink_time num_toggles : Z) (st : state) :
  ((exists fuel st', led_blink fuel blink_time num_toggles st = Some st')
   <-> num_toggles <= 255) /\
  (forall fuel, led_blink (4 + fuel) blink_time 2 st
                = Some (spec_blink blink_time 2 st)) /\
  (forall fuel, led_blink (4 + fuel) blink_time 3 st
                = Some (spec_blink blink_time 3 st)).
Proof.
  split; [split |].
  - intros (fuel & st' & Hret).
    destruct (Z_le_gt_dec num_toggles 255) as [Hle | Hgt]; [exact Hle |].
    rewrite led_blink_never_returns in Hret by lia. discriminate.
  - intros Hle. destruct (Z_le_gt_dec num_toggles 0) as [Hneg | Hpos].
    + exists 1%nat. unfold led_blink.
      rewrite led_blink_loop_skips by assumption. eauto.
    + exists (S (Z.to_nat num_toggles)).
      rewrite led_blink_returns by lia. eauto.
  - split; intros fuel.
    + rewrite led_blink_returns by (simpl; lia). reflexivity.
    + rewrite led_blink_returns by (simpl; lia). reflexivity.
Qed.

(** ** The callbacks *)

(** Decide the four comparisons of the [switch] in the goal. *)
Ltac switch_cases K mode :=
  destruct (Z.eqb_spec mode (CY_SYSPM_CHECK_READY K));
  destruct (Z.eqb_spec mode (CY_SYSPM_CHECK_FAIL K));
  destruct (Z.eqb_spec mode (CY_SYSPM_BEFORE_TRANSITION K));
  destruct (Z.eqb_spec mode (CY_SYSPM_AFTER_TRANSITION K)).

(** Outside the before-transition case the [switch] only assigns
    [ret_val]. *)
Lemma callback_function_frame K fuel mode led_blink_count st :
  to_uint8 mode <> CY_SYSPM_BEFORE_TRANSITION K ->
  exists r, callback_function K fuel mode led_blink_count st = Some (r, st).
Proof.
  intros Hmode. unfold callback_function.
  switch_cases K (to_uint8 mode); try contradiction; eauto.
Qed.

(** In the before-transition case the handler blinks and reports
    success. *)
Lemma callback_function_before K fuel mode led_blink_count st :
  labels_distinct K ->
  to_uint8 mode = CY_SYSPM_BEFORE_TRANSITION K ->
  is_uint8 led_blink_count ->
  (Z.to_nat led_blink_count < fuel)%nat ->
  callback_function K fuel mode led_blink_count st
  = Some (CY_SYSPM_SUCCESS,
          spec_blink BLINK_TIME_MS (Z.to_nat led_blink_count) st).
Proof.
  intros Hd Hmode Hn Hf. unfold callback_function, labels_distinct in *.
  rewrite (to_uint8_small led_blink_count) by assumption.
  rewrite led_blink_returns by assumption.
  switch_cases K (to_uint8 mode); try reflexivity; lia.
Qed.

(** C1 (amended): with enough fuel for any 8-bit cycle count,
    [callback_function] returns for every mode, and so do the two
    registered handlers.  The status is [CY_SYSPM_FAIL] at the
    check-failed checkpoint and [CY_SYSPM_SUCCESS] at check-ready,
    before-transition, after-transition and every other mode value. *)
Theorem callback_function_status
    (K : callback_modes) (fuel : nat) (mode led_blink_count : Z) (st : state) :
  labels_distinct K ->
  is_uint8 mode ->
  (255 < fuel)%nat ->
  let status := if mode =? CY_SYSPM_CHECK_FAIL K
                then CY_SYSPM_FAIL else CY_SYSPM_SUCCESS in
  (exists st', callback_function K fuel mode led_blink_count st
               = Some (status, st')) /\
  (exists st', sleep_callback K fuel callbackParams mode st
               = Some (status, st')) /\
  (exists st', deep_sleep_callback K fuel callbackParams mode st
               = Some (status, st')).
Proof.
  intros Hd Hmode Hf status.
  assert (Hall : forall n, exists st',
             callback_function K fuel mode n st = Some (status, st')).
  { intros n. subst status.
    destruct (Z.eq_dec mode (CY_SYSPM_BEFORE_TRANSITION K)) as [Hb | Hnb].
    - pose proof (to_uint8_range n) as Hn.
      assert (Hret : callback_function K fuel mode (to_uint8 n) st
                     = Some (CY_SYSPM_SUCCESS,
                             spec_blink BLINK_TIME_MS
                               (Z.to_nat (to_uint8 n)) st)).
      { apply callback_function_before; try assumption.
        - now rewrite to_uint8_small.
        - unfold is_uint8 in Hn; lia. }
      unfold callback_function in *.
      rewrite (to_uint8_small (to_uint8 n)) in Hret by assumption.
      rewrite Hret.
      replace (mode =? CY_SYSPM_CHECK_FAIL K) with false; [eauto |].
      symmetry; apply Z.eqb_neq. unfold labels_distinct in Hd. lia.
    - unfold callback_function. rewrite (to_uint8_small mode) by assumption.
      unfold labels_distinct in Hd.
      switch_cases K mode; try contradiction; eauto; lia. }
  split; [apply Hall |]. split; [apply (Hall 2) | apply (Hall 3)].
Qed.

Lemma callback_function_status_witness :
  exists st', callback_function pdl_modes 256 4 2 initial_state
              = Some (CY_SYSPM_SUCCESS, st').
Proof.
  apply (callback_function_status pdl_modes 256 4 2 initial_state).
  - exact pdl_modes_distinct.
  - unfold is_uint8; lia.
  - lia.
Defined.

(** C1 (counterexample): called at the check-failed checkpoint, the
    sleep handler reports [CY_SYSPM_FAIL], not success. *)
Lemma check_fail_reports_failure :
  sleep_callback pdl_modes 257 callbackParams
    (CY_SYSPM_CHECK_FAIL pdl_modes) initial_state
  = Some (CY_SYSPM_FAIL, initial_state) /\
  forall st', sleep_callback pdl_modes 257 callbackParams
                (CY_SYSPM_CHECK_FAIL pdl_modes) initial_state
              <> Some (CY_SYSPM_SUCCESS, st').
Proof.
  split; [reflexivity |]. intros st' H.
  change (Some (CY_SYSPM_FAIL, initial_state) = Some (CY_SYSPM_SUCCESS, st'))
    in H.
  discriminate.
Qed.

(** C4: at the before-transition checkpoint the sleep handler calls
    [led_blink] with 200 ms and 2 cycles, the deep sleep handler with
    200 ms and 3 cycles; both then report success.  At every other mode
    value the handler returns with the machine state, trace included, as
    it found it. *)
Theorem before_transition_blinks
    (K : callback_modes) (fuel : nat) (st : state) :
  labels_distinct K ->
  labels_fit_uint8 K ->
  (3 < fuel)%nat ->
  sleep_callback K fuel callbackParams (CY_SYSPM_BEFORE_TRANSITION K) st
    = Some (CY_SYSPM_SUCCESS, spec_blink 200 2 st) /\
  deep_sleep_callback K fuel callbackParams (CY_SYSPM_BEFORE_TRANSITION K) st
    = Some (CY_SYSPM_SUCCESS, spec_blink 200 3 st) /\
  (forall mode led_blink_count,
      to_uint8 mode <> CY_SYSPM_BEFORE_TRANSITION K ->
      exists r, callback_function K fuel mode led_blink_count st
                = Some (r, st)).
Proof.
  intros Hd (_ & _ & Hfit & _) Hf.
  split; [| split].
  - unfold sleep_callback.
    rewrite callback_function_before;
      [reflexivity | assumption | now apply to_uint8_small
      | unfold is_uint8; lia | simpl; lia].
  - unfold deep_sleep_callback.
    rewrite callback_function_before;
      [reflexivity | assumption | now apply to_uint8_small
      | unfold is_uint8; lia | simpl; lia].
  - intros mode n Hmode. now apply callback_function_frame.
Qed.

Lemma before_transition_blinks_witness :
  sleep_callback pdl_modes 4 callbackParams 4 initial_state
  = Some (CY_SYSPM_SUCCESS, spec_blink 200 2 initial_state).
Proof.
  apply (before_transition_blinks pdl_modes 4 initial_state).
  - exact pdl_modes_distinct.
  - exact pdl_modes_fit.
  - lia.
Defined.

(** C8: at check-ready and at after-transition [callback_function]
    reports success and changes nothing; so it does for every 8-bit mode
    value that is none of the four enumerators. *)
Theorem callback_function_noop_modes
    (K : callback_modes) (fuel : nat) (mode led_blink_count : Z) (st : state) :
  labels_distinct K ->
  is_uint8 mode ->
  (mode = CY_SYSPM_CHECK_READY K ->
   callback_function K fuel mode led_blink_count st
   = Some (CY_SYSPM_SUCCESS, st)) /\
  (mode = CY_SYSPM_AFTER_TRANSITION K ->
   callback_function K fuel mode led_blink_count st
   = Some (CY_SYSPM_SUCCESS, st)) /\
  (mode <> CY_SYSPM_CHECK_READY K ->
   mode <> CY_SYSPM_CHECK_FAIL K ->
   mode <> CY_SYSPM_BEFORE_TRANSITION K ->
   mode <> CY_SYSPM_AFTER_TRANSITION K ->
   callback_function K fuel mode led_blink_count st
   = Some (CY_SYSPM_SUCCESS, st)).
Proof.
  intros Hd Hmode. unfold callback_function, labels_distinct in *.
  rewrite (to_uint8_small mode) by assumption.
  repeat split; intros; switch_cases K mode; try reflexivity; lia.
Qed.

Lemma callback_function_noop_modes_witness :
  callback_function pdl_modes 0 1 2 initial_state
    = Some (CY_SYSPM_SUCCESS, initial_state) /\
  callback_function pdl_modes 0 8 2 initial_state
    = Some (CY_SYSPM_SUCCESS, initial_state) /\
  callback_function pdl_modes 0 16 2 initial_state
    = Some (CY_SYSPM_SUCCESS, initial_state).
Proof.
  pose proof pdl_modes_distinct as Hd.
  assert (Hu : forall v, 0 <= v <= 255 -> is_uint8 v) by (intros v H; exact H).
  split; [| split].
  - apply (proj1 (callback_function_noop_modes pdl_modes 0 1 2
                    initial_state Hd (Hu 1 ltac:(lia)))).
    reflexivity.
  - apply (proj1 (proj2 (callback_function_noop_modes pdl_modes 0 8 2
                           initial_state Hd (Hu 8 ltac:(lia))))).
    reflexivity.
  - apply (proj2 (proj2 (callback_function_noop_modes pdl_modes 0 16 2
                           initial_state Hd (Hu 16 ltac:(lia)))));
      simpl; lia.
Defined.

(** ** The interrupt handler *)

Lemma switch_isr_increments st :
  SwitchPressCount (switch_isr st) = to_int16 (SwitchPressCount st + 1).
Proof. reflexivity. Qed.

Lemma press_S n st : press (S n) st = switch_isr (press n st).
Proof. reflexivity. Qed.

(** After [n] runs of the handler the counter holds the 16-bit
    wrap-around of the sum. *)
Lemma press_count n st :
  is_int16 (SwitchPressCount st) ->
  SwitchPressCount (press n st) = to_int16 (SwitchPressCount st + Z.of_nat n).
Proof.
  intros Hst. induction n as [| n IH].
  - simpl. rewrite Z.add_0_r. symmetry. now apply to_int16_small.
  - rewrite press_S, switch_isr_increments, IH, to_int16_succ.
    f_equal. lia.
Qed.

(** C5 (counterexample): the 32768th run of the handler finds the
    counter at [INT16_MAX] and leaves it at [INT16_MIN]; after 32768
    edges the counter does not hold 32768. *)
Lemma press_32768_wraps :
  SwitchPressCount (press (Z.to_nat 32768) initial_state) = -32768 /\
  SwitchPressCount (press (Z.to_nat 32768) initial_state)
  <> Z.of_nat (Z.to_nat 32768).
Proof.
  assert (H : SwitchPressCount (press (Z.to_nat 32768) initial_state)
              = -32768).
  { rewrite press_count
      by (unfold is_int16, INT16_MIN, INT16_MAX; simpl; lia).
    rewrite Z2Nat.id by lia. reflexivity. }
  split; [exact H |]. rewrite H, Z2Nat.id by lia. lia.
Qed.

(** ** The main loop *)

Lemma main_loop_body_cases P st :
  is_int16 (SwitchPressCount st) ->
  main_loop_body P st
  = let st1 := Cy_GPIO_Write LED_ON st in
    if SwitchPressCount st =? 1 then Cy_SysPm_CpuEnterSleep P st1
    else if SwitchPressCount st =? 3
         then set_SwitchPressCount 0 (Cy_SysPm_CpuEnterDeepSleep P st1)
         else st1.
Proof.
  intros Hst. unfold main_loop_body.
  cbn [SwitchPressCount Cy_GPIO_Write log].
  unfold SLEEP_SWITCH_PRESS, DEEP_SLEEP_SWITCH_PRESS.
  rewrite !to_uint32_eq_small by (assumption || unfold INT16_MAX; lia).
  reflexivity.
Qed.

(** Run without interrupts from the top of the loop, the statements of
    one iteration compose to [main_loop_body]. *)
Lemma main_loop_body_steps P st :
  exists k,
    (3 <= k <= 5)%nat /\
    run P (repeat MainStep k) {| pc := AtLedOn; mem := st |}
    = {| pc := AtLedOn; mem := main_loop_body P st |}.
Proof.
  unfold main_loop_body.
  destruct (to_uint32 (SwitchPressCount (Cy_GPIO_Write LED_ON st))
            =? SLEEP_SWITCH_PRESS) eqn:H1;
    [| destruct (to_uint32 (SwitchPressCount (Cy_GPIO_Write LED_ON st))
                 =? DEEP_SLEEP_SWITCH_PRESS) eqn:H3].
  - exists 3%nat. split; [lia |].
    cbn [repeat run fold_left exec main_step pc mem]. rewrite H1.
    reflexivity.
  - exists 5%nat. split; [lia |].
    cbn [repeat run fold_left exec main_step pc mem]. rewrite H1.
    cbn [main_step pc mem]. rewrite H3. reflexivity.
  - exists 3%nat. split; [lia |].
    cbn [repeat run fold_left exec main_step pc mem]. rewrite H1.
    cbn [main_step pc mem]. rewrite H3. reflexivity.
Qed.

Lemma tests_after_led_on st value :
  is_int16 (SwitchPressCount st) ->
  (to_uint32 (SwitchPressCount (Cy_GPIO_Write value st)) =? SLEEP_SWITCH_PRESS)
  = (SwitchPressCount st =? 1) /\
  (to_uint32 (SwitchPressCount (Cy_GPIO_Write value st))
   =? DEEP_SLEEP_SWITCH_PRESS)
  = (SwitchPressCount st =? 3).
Proof.
  intros Hst. cbn [SwitchPressCount Cy_GPIO_Write log].
  unfold SLEEP_SWITCH_PRESS, DEEP_SLEEP_SWITCH_PRESS.
  split; apply to_uint32_eq_small; (assumption || unfold INT16_MAX; lia).
Qed.

(** C2: in an iteration of the main loop that finds the counter at
    exactly 1, the statement reached after the two tests is the call of
    [Cy_SysPm_CpuEnterSleep], and the iteration is that call made after
    the LED was switched on; when it finds exactly 3, the statement
    reached is the call of [Cy_SysPm_CpuEnterDeepSleep]; for every
    other value both tests fail, control is back at the top of the loop
    and the iteration has only switched the LED on. *)
Theorem main_loop_selects_mode (P : platform) (st : state) :
  is_int16 (SwitchPressCount st) ->
  let st1 := Cy_GPIO_Write LED_ON st in
  let top := {| pc := AtLedOn; mem := st |} in
  (SwitchPressCount st = 1 ->
   run P [MainStep; MainStep] top = {| pc := AtEnterSleep; mem := st1 |} /\
   main_loop_body P st = Cy_SysPm_CpuEnterSleep P st1) /\
  (SwitchPressCount st = 3 ->
   run P [MainStep; MainStep; MainStep] top
     = {| pc := AtEnterDeepSleep; mem := st1 |} /\
   main_loop_body P st
     = set_SwitchPressCount 0 (Cy_SysPm_CpuEnterDeepSleep P st1)) /\
  (SwitchPressCount st <> 1 ->
   SwitchPressCount st <> 3 ->
   run P [MainStep; MainStep; MainStep] top = {| pc := AtLedOn; mem := st1 |} /\
   main_loop_body P st = st1).
Proof.
  intros Hst st1 top. subst st1 top.
  destruct (tests_after_led_on st LED_ON Hst) as [E1 E3].
  unfold main_loop_body.
  cbn [run fold_left exec main_step pc mem]. rewrite E1.
  split; [| split].
  - intros H1. rewrite H1. split; reflexivity.
  - intros H3. rewrite H3. cbn [Z.eqb Pos.eqb main_step pc mem].
    rewrite E3, H3. split; reflexivity.
  - intros H1 H3.
    destruct (Z.eqb_spec (SwitchPressCount st) 1); [contradiction |].
    cbn [main_step pc mem]. rewrite E3.
    destruct (Z.eqb_spec (SwitchPressCount st) 3); [contradiction |].
    split; reflexivity.
Qed.

(** C3: the iteration that enters Sleep ends with the state the
    mode-entry call returned, so the counter is what that call left; on a
    platform that does not touch the counter it still holds 1.  The
    iteration that enters Deep Sleep ends with the state the mode-entry
    call returned in which the counter has been set to 0. *)
Theorem main_loop_counter_frame (P : platform) (st : state) :
  is_int16 (SwitchPressCount st) ->
  let st1 := Cy_GPIO_Write LED_ON st in
  (SwitchPressCount st = 1 ->
   main_loop_body P st = Cy_SysPm_CpuEnterSleep P st1 /\
   (platform_keeps_count P ->
    SwitchPressCount (main_loop_body P st) = SwitchPressCount st)) /\
  (SwitchPressCount st = 3 ->
   main_loop_body P st
     = set_SwitchPressCount 0 (Cy_SysPm_CpuEnterDeepSleep P st1) /\
   SwitchPressCount (main_loop_body P st) = 0).
Proof.
  intros Hst st1. subst st1.
  rewrite main_loop_body_cases by assumption. cbn zeta.
  split.
  - intros H1. rewrite H1. cbn [Z.eqb Pos.eqb]. split; [reflexivity |].
    intros [Hsleep _]. now rewrite Hsleep.
  - intros H3. rewrite H3. cbn [Z.eqb Pos.eqb]. split; reflexivity.
Qed.

(** *** The counter under interleaving *)

Lemma led_blink_loop_keeps_count fuel blink_time num_toggles :
  forall count st st',
    led_blink_loop fuel blink_time num_toggles count st = Some st' ->
    SwitchPressCount st' = SwitchPressCount st.
Proof.
  induction fuel as [| fuel IH]; intros count st st' H; [discriminate |].
  simpl in H. destruct (count <? num_toggles).
  - now rewrite (IH _ _ _ H).
  - now inversion H.
Qed.

Lemma callback_function_keeps_count K fuel mode led_blink_count st r st' :
  callback_function K fuel mode led_blink_count st = Some (r, st') ->
  SwitchPressCount st' = SwitchPressCount st.
Proof.
  unfold callback_function, led_blink.
  destruct (led_blink_loop fuel BLINK_TIME_MS (to_uint8 led_blink_count) 0 st)
    as [st2 |] eqn:Hloop.
  - apply led_blink_loop_keeps_count in Hloop.
    switch_cases K (to_uint8 mode); intros H; inversion H; subst;
      (reflexivity || exact Hloop).
  - switch_cases K (to_uint8 mode); intros H; inversion H; reflexivity.
Qed.

Lemma enter_low_power_keeps_count handler K :
  (forall fuel params mode st r st',
      handler fuel params mode st = Some (r, st') ->
      SwitchPressCount st' = SwitchPressCount st) ->
  forall st,
    SwitchPressCount (enter_low_power handler K st) = SwitchPressCount st.
Proof.
  intros Hh st. unfold enter_low_power.
  destruct (handler 257%nat callbackParams (CY_SYSPM_CHECK_READY K) st)
    as [[[|] st1] |] eqn:H1; [| | reflexivity].
  - apply Hh in H1.
    destruct (handler 257%nat callbackParams (CY_SYSPM_BEFORE_TRANSITION K) st1)
      as [[r2 st2] |] eqn:H2; [| exact H1].
    apply Hh in H2.
    destruct (handler 257%nat callbackParams (CY_SYSPM_AFTER_TRANSITION K) st2)
      as [[r3 st3] |] eqn:H3; [| congruence].
    apply Hh in H3. congruence.
  - now apply Hh in H1.
Qed.

Lemma pdl_platform_keeps_count : platform_keeps_count pdl_platform.
Proof.
  split; intros st; apply enter_low_power_keeps_count;
    intros fuel params mode s r s'; apply callback_function_keeps_count.
Qed.

(** Every action either leaves the counter as it is, or is the interrupt
    handler's increment, or is the assignment after the Deep Sleep call. *)
Lemma exec_count_writers P a m :
  platform_keeps_count P ->
  SwitchPressCount (mem (exec P a m)) = SwitchPressCount (mem m) \/
  (a = Interrupt /\
   SwitchPressCount (mem (exec P a m))
   = to_int16 (SwitchPressCount (mem m) + 1)) \/
  (a = MainStep /\ pc m = AtResetCount /\
   SwitchPressCount (mem (exec P a m)) = 0).
Proof.
  intros [Hsleep Hdeep]. destruct a.
  - right; left. split; reflexivity.
  - destruct m as [p st]. destruct p; cbn [exec main_step pc mem].
    + left; reflexivity.
    + left. now destruct (_ =? _).
    + left. now destruct (_ =? _).
    + left. apply Hsleep.
    + left. apply Hdeep.
    + right; right. repeat split; reflexivity.
Qed.

Lemma run_cons P a sched m : run P (a :: sched) m = run P sched (exec P a m).
Proof. reflexivity. Qed.

(** Without overflow the counter stays within [0, INT16_MAX]. *)
Lemma run_count_range P :
  platform_keeps_count P ->
  forall sched m,
    0 <= SwitchPressCount (mem m) <= INT16_MAX ->
    overflow_free P sched m = true ->
    0 <= SwitchPressCount (mem (run P sched m)) <= INT16_MAX.
Proof.
  intros HP sched. induction sched as [| a sched IH]; intros m Hm Hfree.
  - exact Hm.
  - rewrite run_cons. cbn [overflow_free] in Hfree.
    apply andb_true_iff in Hfree as [Hnow Hrest].
    apply IH; [| exact Hrest].
    destruct (exec_count_writers P a m HP) as [Heq | [[Ha Heq] | (_ & _ & Heq)]];
      rewrite Heq; [exact Hm | | unfold INT16_MAX; lia].
    subst a. apply negb_true_iff, Z.eqb_neq in Hnow.
    rewrite to_int16_small; unfold is_int16, INT16_MIN, INT16_MAX in *; lia.
Qed.

(** An interleaving with at most 32767 interrupts cannot overflow the
    counter, whatever the main loop does in between. *)
Lemma few_interrupts_overflow_free P :
  platform_keeps_count P ->
  forall sched m,
    0 <= SwitchPressCount (mem m) ->
    SwitchPressCount (mem m) + Z.of_nat (interrupts sched) <= INT16_MAX ->
    overflow_free P sched m = true.
Proof.
  intros HP sched. induction sched as [| a sched IH]; intros m Hm Hsum.
  - reflexivity.
  - cbn [overflow_free]. apply andb_true_iff.
    unfold INT16_MAX in *.
    destruct (exec_count_writers P a m HP)
      as [Heq | [[Ha Heq] | (Ha & _ & Heq)]].
    + destruct a; unfold interrupts in *; cbn [filter length] in Hsum.
      * split; [apply negb_true_iff, Z.eqb_neq; lia |].
        apply IH; rewrite Heq; lia.
      * split; [reflexivity |]. apply IH; rewrite Heq; lia.
    + subst a. unfold interrupts in *; cbn [filter length] in Hsum.
      rewrite to_int16_small in Heq
        by (unfold is_int16, INT16_MIN, INT16_MAX; lia).
      split; [apply negb_true_iff, Z.eqb_neq; lia |].
      apply IH; rewrite Heq; lia.
    + subst a. unfold interrupts in *; cbn [filter length] in Hsum.
      split; [reflexivity |]. apply IH; rewrite Heq; lia.
Qed.

(** Without a reset and without overflow, the counter has grown by the
    number of interrupts taken, whatever statements of [main] ran in
    between. *)
Lemma run_count_no_reset P :
  platform_keeps_count P ->
  forall sched m,
    0 <= SwitchPressCount (mem m) ->
    SwitchPressCount (mem m) + Z.of_nat (interrupts sched) <= INT16_MAX ->
    reset_free P sched m = true ->
    SwitchPressCount (mem (run P sched m))
    = SwitchPressCount (mem m) + Z.of_nat (interrupts sched).
Proof.
  intros HP sched. unfold INT16_MAX.
  induction sched as [| a sched IH]; intros m Hm Hsum Hfree.
  - unfold interrupts. simpl. lia.
  - rewrite run_cons. cbn [reset_free] in Hfree.
    apply andb_true_iff in Hfree as [Hnow Hrest].
    unfold interrupts in *. destruct a; cbn [filter length] in *.
    + assert (Heq : SwitchPressCount (mem (exec P Interrupt m))
                    = SwitchPressCount (mem m) + 1).
      { cbn [exec mem]. rewrite switch_isr_increments.
        apply to_int16_small. unfold is_int16, INT16_MIN, INT16_MAX. lia. }
      rewrite IH; rewrite ?Heq; try assumption; lia.
    + assert (Heq : SwitchPressCount (mem (exec P MainStep m))
                    = SwitchPressCount (mem m)).
      { destruct (exec_count_writers P MainStep m HP)
          as [Heq | [[Ha _] | (_ & Hpc & _)]];
          [exact Heq | discriminate |].
        rewrite Hpc in Hnow. discriminate. }
      rewrite IH; rewrite ?Heq; try assumption; lia.
Qed.

(** C5 (amended): every run of the handler clears the pending interrupt
    of the button pin, by a call of [Cy_GPIO_ClearInterrupt] that is
    the last thing it does, after the increment; a run that finds the
    counter below [INT16_MAX] adds exactly one to it.  Starting from
    the initial value 0, after [n <= 32767] runs in a row the counter
    holds [n]; and so it does after any interleaving of that many
    interrupts with statements of [main] in which the counter is not
    reset, on a platform whose mode-entry calls do not write it. *)
Theorem switch_isr_counts
    (P : platform) (st : state) (n : nat) (sched : list action) :
  btn_intr_pending (switch_isr st) = false /\
  trace (switch_isr st) = trace st ++ [ClearInterrupt] /\
  user_led (switch_isr st) = user_led st /\
  SwitchPressCount (switch_isr st) = to_int16 (SwitchPressCount st + 1) /\
  (INT16_MIN <= SwitchPressCount st < INT16_MAX ->
   SwitchPressCount (switch_isr st) = SwitchPressCount st + 1) /\
  (Z.of_nat n <= INT16_MAX ->
   SwitchPressCount (press n initial_state) = Z.of_nat n) /\
  (platform_keeps_count P ->
   reset_free P sched initial_machine = true ->
   Z.of_nat (interrupts sched) <= INT16_MAX ->
   SwitchPressCount (mem (run P sched initial_machine))
   = Z.of_nat (interrupts sched)).
Proof.
  do 4 (split; [reflexivity |]).
  unfold INT16_MIN, INT16_MAX. split; [| split].
  - intros Hst. rewrite switch_isr_increments.
    apply to_int16_small. unfold is_int16, INT16_MIN, INT16_MAX. lia.
  - intros Hn.
    rewrite press_count by (vm_compute; split; discriminate).
    cbn [initial_state SwitchPressCount].
    apply to_int16_small. unfold is_int16, INT16_MIN, INT16_MAX. lia.
  - intros HP Hfree Hn.
    rewrite (run_count_no_reset P HP sched initial_machine);
      cbn [initial_machine mem initial_state SwitchPressCount];
      unfold INT16_MAX; (assumption || lia).
Qed.

Lemma switch_isr_counts_witness :
  btn_intr_pending (switch_isr (press (Z.to_nat 32767) initial_state))
  = false /\
  SwitchPressCount (switch_isr initial_state) = 0 + 1 /\
  SwitchPressCount (press 3 initial_state) = Z.of_nat 3 /\
  SwitchPressCount
    (mem (run pdl_platform
            [Interrupt; MainStep; MainStep; MainStep; Interrupt]
            initial_machine))
  = Z.of_nat 2.
Proof.
  split; [| split; [| split]].
  - exact (proj1 (switch_isr_counts pdl_platform
                    (press (Z.to_nat 32767) initial_state) 0 [])).
  - apply (switch_isr_counts pdl_platform initial_state 0 []).
    vm_compute. split; [discriminate | reflexivity].
  - apply (switch_isr_counts pdl_platform initial_state 3 []).
    vm_compute. discriminate.
  - apply (switch_isr_counts pdl_platform initial_state 0
             [Interrupt; MainStep; MainStep; MainStep; Interrupt]).
    + exact pdl_platform_keeps_count.
    + vm_compute. reflexivity.
    + vm_compute. discriminate.
Defined.

(** C9: the counter starts at 0.  On a platform whose mode-entry calls
    do not write it, every action of every interleaving either leaves it
    unchanged, or is the interrupt handler's increment, or is the
    assignment of 0 after the Deep Sleep call; and after every
    interleaving of interrupts and statements of [main] in which the
    increment never overflows, the counter is not negative. *)
Theorem SwitchPressCount_nonnegative (P : platform) (sched : list action) :
  platform_keeps_count P ->
  overflow_free P sched initial_machine = true ->
  SwitchPressCount (mem initial_machine) = 0 /\
  0 <= SwitchPressCount (mem (run P sched initial_machine)) /\
  (forall a m,
      SwitchPressCount (mem (exec P a m)) = SwitchPressCount (mem m) \/
      (a = Interrupt /\
       SwitchPressCount (mem (exec P a m))
       = to_int16 (SwitchPressCount (mem m) + 1)) \/
      (a = MainStep /\ pc m = AtResetCount /\
       SwitchPressCount (mem (exec P a m)) = 0)).
Proof.
  intros HP Hfree. split; [reflexivity |]. split.
  - apply (run_count_range P HP sched initial_machine); [| exact Hfree].
    unfold INT16_MAX; simpl; lia.
  - intros a m. now apply exec_count_writers.
Qed.

Lemma SwitchPressCount_nonnegative_witness :
  0 <= SwitchPressCount
         (mem (run pdl_platform
                 [Interrupt; MainStep; MainStep; MainStep; Interrupt;
                  Interrupt; MainStep; MainStep; MainStep; MainStep;
                  Interrupt; MainStep]
                 initial_machine)).
Proof.
  apply (SwitchPressCount_nonnegative pdl_platform
           [Interrupt; MainStep; MainStep; MainStep; Interrupt;
            Interrupt; MainStep; MainStep; MainStep; MainStep;
            Interrupt; MainStep]).
  - exact pdl_platform_keeps_count.
  - vm_compute. reflexivity.
Defined.

Lemma main_loop_selects_mode_witness :
  main_loop_body pdl_platform (press 1 initial_state)
  = Cy_SysPm_CpuEnterSleep pdl_platform
      (Cy_GPIO_Write LED_ON (press 1 initial_state)).
Proof.
  apply (main_loop_selects_mode pdl_platform (press 1 initial_state)).
  - vm_compute. split; discriminate.
  - reflexivity.
Defined.

Lemma main_loop_counter_frame_witness :
  SwitchPressCount (main_loop_body pdl_platform (press 3 initial_state)) = 0.
Proof.
  apply (main_loop_counter_frame pdl_platform (press 3 initial_state)).
  - vm_compute. split; discriminate.
  - reflexivity.
Defined.

(** ** The overflow edge *)

Lemma run_interrupts P n m :
  run P (repeat Interrupt n) m = {| pc := pc m; mem := press n (mem m) |}.
Proof.
  revert m. induction n as [| n IH]; intros m.
  - now destruct m.
  - cbn [repeat]. rewrite run_cons, IH. cbn [exec pc mem]. f_equal.
    clear IH. induction n as [| n IHn]; [reflexivity |].
    rewrite press_S, IHn. reflexivity.
Qed.

(** 32768 presses with no Deep Sleep in between take the counter to
    [INT16_MIN]: below zero. *)
Lemma overflow_reaches_negative P :
  SwitchPressCount
    (mem (run P (repeat Interrupt (Z.to_nat 32768)) initial_machine))
  = INT16_MIN.
Proof.
  rewrite run_interrupts. cbn [mem initial_machine].
  rewrite press_count by (unfold is_int16, INT16_MIN, INT16_MAX; simpl; lia).
  rewrite Z2Nat.id by lia. reflexivity.
Qed.

(** ** The scenario of the specification, on the reference platform *)

(** One press, then an iteration: Sleep is entered after two blink
    cycles of 200 ms, and the counter still holds 1. *)
Example scenario_sleep :
  let st := main_loop_body pdl_platform (press 1 initial_state) in
  SwitchPressCount st = 1 /\
  trace st = [ClearInterrupt; GpioWrite LED_ON]
             ++ spec_blink_events 200 2 ++ [GpioWrite LED_OFF].
Proof. vm_compute. split; reflexivity. Qed.

(** A second press: the next iteration attempts no transition.  A third
    press: the iteration enters Deep Sleep after three blink cycles and
    resets the counter. *)
Example scenario_deep_sleep :
  let st1 := main_loop_body pdl_platform (press 1 initial_state) in
  let st2 := main_loop_body pdl_platform (press 1 st1) in
  let st3 := main_loop_body pdl_platform (press 1 st2) in
  SwitchPressCount st2 = 2 /\
  trace st2 = trace st1 ++ [ClearInterrupt; GpioWrite LED_ON] /\
  SwitchPressCount st3 = 0 /\
  trace st3 = trace st2 ++ [ClearInterrupt; GpioWrite LED_ON]
              ++ spec_blink_events 200 3 ++ [GpioWrite LED_OFF].
Proof. vm_compute. repeat split; reflexivity. Qed.

(** * Further properties of the code *)

(** ** [led_blink] *)

Lemma total_delay_app l1 l2 :
  total_delay (l1 ++ l2) = total_delay l1 + total_delay l2.
Proof.
  induction l1 as [| e l1 IH]; [reflexivity |].
  destruct e; cbn [app total_delay]; rewrite IH; lia.
Qed.

Lemma spec_blink_events_total_delay blink_time n :
  total_delay (spec_blink_events blink_time n)
  = 2 * Z.of_nat n * blink_time.
Proof.
  unfold spec_blink_events. induction n as [| n IH]; [reflexivity |].
  cbn [repeat concat]. rewrite total_delay_app, IH.
  cbn [total_delay]. lia.
Qed.

Lemma count_delays_app l1 l2 :
  count_delays (l1 ++ l2) = (count_delays l1 + count_delays l2)%nat.
Proof. unfold count_delays. now rewrite filter_app, length_app. Qed.

Lemma count_writes_app value l1 l2 :
  count_writes value (l1 ++ l2)
  = (count_writes value l1 + count_writes value l2)%nat.
Proof. unfold count_writes. now rewrite filter_app, length_app. Qed.

(** X1: a call of [led_blink] with a cycle count from 0 to 255 returns
    after it has spent [2 * num_toggles * blink_time] ms in
    [Cy_SysLib_Delay], in [2 * num_toggles] delays, and has written the
    pin [num_toggles + 1] times off and [num_toggles] times on. *)
Theorem led_blink_duration
    (fuel : nat) (blink_time num_toggles : Z) (st : state) :
  0 <= num_toggles <= 255 ->
  (Z.to_nat num_toggles < fuel)%nat ->
  exists st' new,
    led_blink fuel blink_time num_toggles st = Some st' /\
    trace st' = trace st ++ new /\
    total_delay new = 2 * num_toggles * blink_time /\
    Z.of_nat (count_delays new) = 2 * num_toggles /\
    Z.of_nat (count_writes LED_OFF new) = num_toggles + 1 /\
    Z.of_nat (count_writes LED_ON new) = num_toggles.
Proof.
  intros Hn Hf.
  exists (spec_blink blink_time (Z.to_nat num_toggles) st).
  exists (spec_blink_events blink_time (Z.to_nat num_toggles)
          ++ [GpioWrite LED_OFF]).
  split; [now apply led_blink_returns |]. split; [reflexivity |].
  destruct (spec_blink_events_writes blink_time (Z.to_nat num_toggles))
    as [Hoff Hon].
  rewrite total_delay_app, count_delays_app, !count_writes_app.
  rewrite spec_blink_events_total_delay, spec_blink_events_delays, Hoff, Hon.
  cbn [total_delay count_delays count_writes filter length Z.eqb Pos.eqb
       LED_OFF LED_ON].
  rewrite Z2Nat.id by lia.
  repeat split; lia.
Qed.

Lemma led_blink_duration_witness :
  exists st' new,
    led_blink 4 BLINK_TIME_MS 3 initial_state = Some st' /\
    trace st' = trace initial_state ++ new /\
    total_delay new = 2 * 3 * BLINK_TIME_MS /\
    Z.of_nat (count_delays new) = 2 * 3 /\
    Z.of_nat (count_writes LED_OFF new) = 3 + 1 /\
    Z.of_nat (count_writes LED_ON new) = 3.
Proof.
  apply (led_blink_duration 4 BLINK_TIME_MS 3 initial_state).
  - lia.
  - simpl. lia.
Defined.

Lemma led_blink_loop_frame fuel blink_time num_toggles :
  forall count st st',
    led_blink_loop fuel blink_time num_toggles count st = Some st' ->
    btn_intr_pending st' = btn_intr_pending st /\
    exists new, trace st' = trace st ++ new.
Proof.
  induction fuel as [| fuel IH]; intros count st st' H; [discriminate |].
  simpl in H. destruct (count <? num_toggles).
  - apply IH in H. destruct H as [Hp [new Ht]]. split; [exact Hp |].
    exists ([GpioWrite LED_OFF; Delay blink_time;
             GpioWrite LED_ON; Delay blink_time] ++ new).
    rewrite Ht. cbn [blink_cycle Cy_SysLib_Delay Cy_GPIO_Write log trace].
    now rewrite <- !app_assoc.
  - inversion H; subst. split; [reflexivity |].
    exists []. now rewrite app_nil_r.
Qed.

(** X2: whenever a call of [led_blink] returns, whatever its arguments,
    the LED is off and the last driver call was the write that switched
    it off; the press counter and the pending button interrupt are as
    before the call, and nothing was removed from the trace. *)
Theorem led_blink_postcondition
    (fuel : nat) (blink_time num_toggles : Z) (st st' : state) :
  led_blink fuel blink_time num_toggles st = Some st' ->
  user_led st' = LED_OFF /\
  SwitchPressCount st' = SwitchPressCount st /\
  btn_intr_pending st' = btn_intr_pending st /\
  exists new, trace st' = trace st ++ new ++ [GpioWrite LED_OFF].
Proof.
  unfold led_blink.
  destruct (led_blink_loop fuel blink_time num_toggles 0 st) as [st1 |] eqn:Hl;
    [| discriminate].
  intros H. inversion H; subst; clear H.
  pose proof (led_blink_loop_keeps_count _ _ _ _ _ _ Hl) as Hc.
  destruct (led_blink_loop_frame _ _ _ _ _ _ Hl) as [Hp [new Ht]].
  cbn [Cy_GPIO_Write log user_led SwitchPressCount btn_intr_pending trace].
  repeat split; try assumption.
  exists new. rewrite Ht. now rewrite <- app_assoc.
Qed.

Lemma led_blink_postcondition_witness :
  user_led (Cy_GPIO_Write LED_OFF (press 2 initial_state)) = LED_OFF /\
  SwitchPressCount (Cy_GPIO_Write LED_OFF (press 2 initial_state))
  = SwitchPressCount (press 2 initial_state).
Proof.
  destruct (led_blink_postcondition 1 BLINK_TIME_MS 0
              (press 2 initial_state)
              (Cy_GPIO_Write LED_OFF (press 2 initial_state))
              eq_refl) as (Hled & Hcount & _).
  split; [exact Hled | exact Hcount].
Defined.

(** ** [switch_isr] *)

Lemma to_int16_period v k : to_int16 (v + 65536 * k) = to_int16 v.
Proof.
  unfold to_int16.
  replace (v + 65536 * k + 32768) with (v + 32768 + k * 65536) by lia.
  now rewrite Z_mod_plus_full.
Qed.

(** X3: from a counter in the 16-bit range, [n] runs of the handler
    leave the 16-bit wrap-around of the sum: the counter stays within
    [-32768, 32767] however often the button is pressed, and 65536
    further presses bring it back to the same value. *)
Theorem press_wraps (n : nat) (st : state) :
  is_int16 (SwitchPressCount st) ->
  SwitchPressCount (press n st)
    = to_int16 (SwitchPressCount st + Z.of_nat n) /\
  is_int16 (SwitchPressCount (press n st)) /\
  SwitchPressCount (press (n + Z.to_nat 65536) st)
    = SwitchPressCount (press n st).
Proof.
  intros Hst. rewrite !press_count by assumption.
  split; [reflexivity |]. split; [apply to_int16_range |].
  rewrite Nat2Z.inj_add, Z2Nat.id by lia.
  replace (SwitchPressCount st + (Z.of_nat n + 65536))
    with (SwitchPressCount st + Z.of_nat n + 65536 * 1) by lia.
  apply to_int16_period.
Qed.

Lemma press_wraps_witness :
  SwitchPressCount (press 5 initial_state) = to_int16 (0 + Z.of_nat 5).
Proof.
  apply (press_wraps 5 initial_state).
  vm_compute. split; discriminate.
Defined.

(** X4: the handler makes one driver call, [Cy_GPIO_ClearInterrupt]: it
    never writes the LED pin and never delays.  After [n] runs the LED
    level is untouched and the trace has grown by [n] such calls; after
    at least one run no button interrupt is pending. *)
Theorem press_frame (n : nat) (st : state) :
  user_led (press n st) = user_led st /\
  trace (press n st) = trace st ++ repeat ClearInterrupt n /\
  btn_intr_pending (press (S n) st) = false.
Proof.
  split; [| split; [| reflexivity]].
  - induction n as [| n IH]; [reflexivity |].
    rewrite press_S. exact IH.
  - induction n as [| n IH].
    + simpl. now rewrite app_nil_r.
    + rewrite press_S.
      cbn [switch_isr Cy_GPIO_ClearInterrupt log trace set_SwitchPressCount].
      rewrite IH, <- app_assoc. f_equal.
      change (repeat ClearInterrupt n ++ [ClearInterrupt])
        with (repeat ClearInterrupt n ++ repeat ClearInterrupt 1).
      rewrite <- repeat_app. f_equal. lia.
Qed.

(** ** The callbacks *)

(** X5: a call of [callback_function] that returns has not written the
    press counter or the pending button interrupt and has removed
    nothing from the trace; when its mode was before-transition, the LED
    is off on return. *)
Theorem callback_function_postcondition
    (K : callback_modes) (fuel : nat) (mode led_blink_count : Z)
    (st st' : state) (r : cy_en_syspm_status_t) :
  callback_function K fuel mode led_blink_count st = Some (r, st') ->
  SwitchPressCount st' = SwitchPressCount st /\
  btn_intr_pending st' = btn_intr_pending st /\
  (exists new, trace st' = trace st ++ new) /\
  (labels_distinct K ->
   to_uint8 mode = CY_SYSPM_BEFORE_TRANSITION K ->
   user_led st' = LED_OFF).
Proof.
  intros H. split; [exact (callback_function_keeps_count _ _ _ _ _ _ _ H) |].
  unfold callback_function, led_blink in H.
  assert (Hsame : Some (r, st') = Some (CY_SYSPM_SUCCESS, st) \/
                  Some (r, st') = Some (CY_SYSPM_FAIL, st) ->
                  btn_intr_pending st' = btn_intr_pending st /\
                  (exists new, trace st' = trace st ++ new) /\
                  (labels_distinct K ->
                   to_uint8 mode = CY_SYSPM_BEFORE_TRANSITION K ->
                   to_uint8 mode <> CY_SYSPM_BEFORE_TRANSITION K ->
                   user_led st' = LED_OFF)).
  { intros [E | E]; inversion E; subst;
      (split; [reflexivity |]);
      (split; [exists []; now rewrite app_nil_r | intros; contradiction]). }
  destruct (led_blink_loop fuel BLINK_TIME_MS (to_uint8 led_blink_count) 0 st)
    as [st1 |] eqn:Hl.
  - destruct (led_blink_loop_frame _ _ _ _ _ _ Hl) as [Hp [new Ht]].
    unfold labels_distinct.
    switch_cases K (to_uint8 mode);
      try (symmetry in H;
           destruct (Hsame ltac:(first [left; exact H | right; exact H]))
             as (Hp' & Ht' & Hled);
           split; [exact Hp' |]; split; [exact Ht' |];
           intros Hd Hm; lia).
    all: inversion H; subst;
      cbn [Cy_GPIO_Write log user_led btn_intr_pending trace];
      (split; [exact Hp |]);
      (split; [exists (new ++ [GpioWrite LED_OFF]);
               rewrite Ht; now rewrite <- app_assoc |]);
      reflexivity.
  - unfold labels_distinct.
    switch_cases K (to_uint8 mode); try discriminate;
      symmetry in H;
      destruct (Hsame ltac:(first [left; exact H | right; exact H]))
        as (Hp' & Ht' & Hled);
      (split; [exact Hp' |]); (split; [exact Ht' |]);
      intros Hd Hm; lia.
Qed.

Lemma callback_function_postcondition_witness :
  SwitchPressCount (spec_blink 200 2 (press 1 initial_state))
  = SwitchPressCount (press 1 initial_state).
Proof.
  exact (proj1 (callback_function_postcondition pdl_modes 3 4 2
                  (press 1 initial_state)
                  (spec_blink 200 2 (press 1 initial_state))
                  CY_SYSPM_SUCCESS eq_refl)).
Defined.

Lemma to_uint8_period v k : to_uint8 (v + 256 * k) = to_uint8 v.
Proof.
  unfold to_uint8. replace (v + 256 * k) with (v + k * 256) by lia.
  apply Z_mod_plus_full.
Qed.

(** X6: [callback_function] takes its mode and its cycle count as
    [uint8_t], so only their low eight bits count: a mode or a count
    that is off by a multiple of 256 gives the same call, and the
    registered handlers, which pass the mode they receive, inherit
    this. *)
Theorem callback_function_low_bits
    (K : callback_modes) (fuel : nat) (mode led_blink_count j k : Z)
    (st : state) :
  callback_function K fuel (mode + 256 * j) (led_blink_count + 256 * k) st
    = callback_function K fuel mode led_blink_count st /\
  sleep_callback K fuel callbackParams (mode + 256 * j) st
    = sleep_callback K fuel callbackParams mode st /\
  deep_sleep_callback K fuel callbackParams (mode + 256 * j) st
    = deep_sleep_callback K fuel callbackParams mode st.
Proof.
  assert (H : forall n m, callback_function K fuel (mode + 256 * j)
                            (n + 256 * m) st
                          = callback_function K fuel mode n st).
  { intros n m. unfold callback_function.
    now rewrite !to_uint8_period. }
  split; [apply H |].
  unfold sleep_callback, deep_sleep_callback.
  split; [apply (H 2 0) | apply (H 3 0)].
Qed.

(** ** The main loop without interrupts *)

Lemma main_loop_S P n st :
  main_loop P (S n) st = main_loop_body P (main_loop P n st).
Proof. reflexivity. Qed.

Lemma main_loop_S_first P n st :
  main_loop P (S n) st = main_loop P n (main_loop_body P st).
Proof. unfold main_loop. apply Nat.iter_succ_r. Qed.

Lemma idle_iterations_S n st :
  Cy_GPIO_Write LED_ON (idle_iterations n st) = idle_iterations (S n) st.
Proof.
  unfold idle_iterations, Cy_GPIO_Write, log.
  cbn [SwitchPressCount user_led btn_intr_pending trace]. f_equal.
  rewrite <- app_assoc. f_equal. cbn [repeat]. symmetry. apply repeat_cons.
Qed.

(** While the counter is neither 1 nor 3, iterations only switch the
    LED on. *)
Lemma main_loop_stays_idle P n st :
  is_int16 (SwitchPressCount st) ->
  SwitchPressCount st <> 1 ->
  SwitchPressCount st <> 3 ->
  main_loop P n st = idle_iterations n st.
Proof.
  intros Hst H1 H3. induction n as [| n IH].
  - destruct st. unfold idle_iterations. simpl. now rewrite app_nil_r.
  - rewrite main_loop_S, IH.
    rewrite main_loop_body_cases by exact Hst.
    cbn zeta. cbn [idle_iterations SwitchPressCount].
    destruct (Z.eqb_spec (SwitchPressCount st) 1); [contradiction |].
    destruct (Z.eqb_spec (SwitchPressCount st) 3); [contradiction |].
    apply idle_iterations_S.
Qed.

(** X7: with the counter at any 16-bit value other than 1 and 3, for
    instance after it has passed 3 unnoticed, the main loop left alone
    never calls a mode-entry primitive: whatever the platform, [n]
    iterations only write the LED on [n] times and leave the counter as
    it is. *)
Theorem main_loop_idle (P : platform) (n : nat) (st : state) :
  is_int16 (SwitchPressCount st) ->
  SwitchPressCount st <> 1 ->
  SwitchPressCount st <> 3 ->
  main_loop P n st = idle_iterations n st /\
  SwitchPressCount (main_loop P n st) = SwitchPressCount st /\
  trace (main_loop P n st) = trace st ++ repeat (GpioWrite LED_ON) n.
Proof.
  intros Hst H1 H3.
  rewrite main_loop_stays_idle by assumption.
  repeat split.
Qed.

Lemma main_loop_idle_witness :
  main_loop pdl_platform 5 (press 4 initial_state)
  = idle_iterations 5 (press 4 initial_state).
Proof.
  apply (main_loop_idle pdl_platform 5 (press 4 initial_state)).
  - vm_compute. split; discriminate.
  - vm_compute. discriminate.
  - vm_compute. discriminate.
Defined.

(** X8: on a platform whose mode-entry calls do not write the counter,
    a counter at 1 stays at 1 as long as no interrupt comes, and every
    iteration of the loop calls [Cy_SysPm_CpuEnterSleep] again. *)
Theorem main_loop_sleeps_again (P : platform) (n : nat) (st : state) :
  platform_keeps_count P ->
  SwitchPressCount st = 1 ->
  SwitchPressCount (main_loop P n st) = 1 /\
  main_loop P (S n) st
    = Cy_SysPm_CpuEnterSleep P (Cy_GPIO_Write LED_ON (main_loop P n st)).
Proof.
  intros [Hsleep _] H1.
  assert (Hall : forall k, SwitchPressCount (main_loop P k st) = 1).
  { induction k as [| k IH]; [exact H1 |].
    rewrite main_loop_S, main_loop_body_cases
      by (rewrite IH; vm_compute; split; discriminate).
    cbn zeta. rewrite IH. cbn [Z.eqb Pos.eqb].
    rewrite Hsleep. exact IH. }
  split; [apply Hall |].
  rewrite main_loop_S, main_loop_body_cases
    by (rewrite Hall; vm_compute; split; discriminate).
  cbn zeta. rewrite Hall. reflexivity.
Qed.

Lemma main_loop_sleeps_again_witness :
  SwitchPressCount (main_loop pdl_platform 3 (press 1 initial_state)) = 1.
Proof.
  apply (main_loop_sleeps_again pdl_platform 3 (press 1 initial_state)).
  - exact pdl_platform_keeps_count.
  - reflexivity.
Defined.

(** X9: with the counter at 3, the first iteration calls
    [Cy_SysPm_CpuEnterDeepSleep] and sets the counter to 0, whatever the
    call did to it; as long as no interrupt comes, every later iteration
    only switches the LED on. *)
Theorem main_loop_deep_sleep_once (P : platform) (n : nat) (st : state) :
  is_int16 (SwitchPressCount st) ->
  SwitchPressCount st = 3 ->
  main_loop P (S n) st
    = idle_iterations n
        (set_SwitchPressCount 0
           (Cy_SysPm_CpuEnterDeepSleep P (Cy_GPIO_Write LED_ON st))) /\
  SwitchPressCount (main_loop P (S n) st) = 0.
Proof.
  intros Hst H3.
  rewrite main_loop_S_first, main_loop_body_cases by assumption.
  cbn zeta. rewrite H3. cbn [Z.eqb Pos.eqb].
  rewrite main_loop_stays_idle;
    [split; reflexivity | vm_compute; split; discriminate
    | cbn; lia | cbn; lia].
Qed.

Lemma main_loop_deep_sleep_once_witness :
  SwitchPressCount (main_loop pdl_platform 3 (press 3 initial_state)) = 0.
Proof.
  apply (main_loop_deep_sleep_once pdl_platform 2 (press 3 initial_state)).
  - vm_compute. split; discriminate.
  - reflexivity.
Defined.

(** ** The main loop with interrupts *)

Lemma run_app P l1 l2 m : run P (l1 ++ l2) m = run P l2 (run P l1 m).
Proof. unfold run. apply fold_left_app. Qed.

Lemma to_int16_add a b : to_int16 (to_int16 a + b) = to_int16 (a + b).
Proof.
  unfold to_int16.
  replace ((a + 32768) mod 65536 - 32768 + b + 32768)
    with ((a + 32768) mod 65536 + b) by lia.
  rewrite Z.add_mod_idemp_l by lia.
  f_equal. f_equal. lia.
Qed.

(** X10: presses that arrive between the test that read 3 and the
    assignment after the Deep Sleep call are dropped: with any number of
    interrupts before and after the call of
    [Cy_SysPm_CpuEnterDeepSleep], on any platform, the next statement
    of [main] leaves the counter at 0 and control at the top of the
    loop. *)
Theorem deep_sleep_drops_presses (P : platform) (j k : nat) (m : machine) :
  pc m = AtEnterDeepSleep ->
  let m' := run P (repeat Interrupt j ++ [MainStep]
                   ++ repeat Interrupt k ++ [MainStep]) m in
  pc m' = AtLedOn /\ SwitchPressCount (mem m') = 0.
Proof.
  intros Hpc m'. subst m'.
  rewrite !run_app, !run_interrupts.
  cbn [run fold_left exec main_step pc mem]. rewrite Hpc.
  cbn [pc mem]. split; reflexivity.
Qed.

Lemma deep_sleep_drops_presses_witness :
  SwitchPressCount
    (mem (run pdl_platform
            (repeat Interrupt 2 ++ [MainStep] ++ repeat Interrupt 1
             ++ [MainStep])
            {| pc := AtEnterDeepSleep; mem := press 3 initial_state |}))
  = 0.
Proof.
  apply (deep_sleep_drops_presses pdl_platform 2 1
           {| pc := AtEnterDeepSleep; mem := press 3 initial_state |}).
  reflexivity.
Defined.

(** X11: presses around the Sleep call are all counted: on a platform
    whose mode-entry calls do not write the counter, [j] interrupts
    before and [k] after the call of [Cy_SysPm_CpuEnterSleep] leave
    the 16-bit wrap-around of the counter plus [j + k], with control at
    the top of the loop. *)
Theorem sleep_keeps_presses (P : platform) (j k : nat) (m : machine) :
  platform_keeps_count P ->
  is_int16 (SwitchPressCount (mem m)) ->
  pc m = AtEnterSleep ->
  let m' := run P (repeat Interrupt j ++ [MainStep] ++ repeat Interrupt k) m in
  pc m' = AtLedOn /\
  SwitchPressCount (mem m')
  = to_int16 (SwitchPressCount (mem m) + Z.of_nat j + Z.of_nat k).
Proof.
  intros [Hsleep _] Hm Hpc m'. subst m'.
  rewrite !run_app, !run_interrupts.
  cbn [run fold_left exec main_step pc mem]. rewrite Hpc.
  cbn [main_step pc mem]. split; [reflexivity |].
  rewrite press_count.
  - rewrite Hsleep, press_count by exact Hm. apply to_int16_add.
  - rewrite Hsleep, press_count by exact Hm. apply to_int16_range.
Qed.

Lemma sleep_keeps_presses_witness :
  SwitchPressCount
    (mem (run pdl_platform
            (repeat Interrupt 0 ++ [MainStep] ++ repeat Interrupt 1)
            {| pc := AtEnterSleep; mem := press 1 initial_state |}))
  = to_int16 (1 + Z.of_nat 0 + Z.of_nat 1).
Proof.
  apply (sleep_keeps_presses pdl_platform 0 1
           {| pc := AtEnterSleep; mem := press 1 initial_state |}).
  - exact pdl_platform_keeps_count.
  - vm_compute. split; discriminate.
  - reflexivity.
Defined.

Lemma run_count_int16 P :
  platform_keeps_count P ->
  forall sched m,
    is_int16 (SwitchPressCount (mem m)) ->
    is_int16 (SwitchPressCount (mem (run P sched m))).
Proof.
  intros HP sched. induction sched as [| a sched IH]; intros m Hm.
  - exact Hm.
  - rewrite run_cons. apply IH.
    destruct (exec_count_writers P a m HP) as [Heq | [[_ Heq] | (_ & _ & Heq)]];
      rewrite Heq.
    + exact Hm.
    + apply to_int16_range.
    + vm_compute. split; discriminate.
Qed.

(** X12: on a platform whose mode-entry calls do not write the counter,
    the counter holds a 16-bit value in every state the program can
    reach, under every interleaving of interrupts with the statements of
    [main] and with no bound on the number of presses. *)
Theorem counter_always_int16 (P : platform) (sched : list action) :
  platform_keeps_count P ->
  is_int16 (SwitchPressCount (mem (run P sched initial_machine))).
Proof.
  intros HP.
  assert (H0 : is_int16 (SwitchPressCount (mem initial_machine)))
    by (vm_compute; split; discriminate).
  apply run_count_int16; assumption.
Qed.

Lemma counter_always_int16_witness :
  is_int16
    (SwitchPressCount
       (mem (run pdl_platform [Interrupt; MainStep; Interrupt]
               initial_machine))).
Proof.
  apply (counter_always_int16 pdl_platform [Interrupt; MainStep; Interrupt]).
  exact pdl_platform_keeps_count.
Defined.

Lemma run_count_bounded P :
  platform_keeps_count P ->
  forall sched m,
    0 <= SwitchPressCount (mem m) ->
    SwitchPressCount (mem m) + Z.of_nat (interrupts sched) <= INT16_MAX ->
    0 <= SwitchPressCount (mem (run P sched m))
      <= SwitchPressCount (mem m) + Z.of_nat (interrupts sched).
Proof.
  intros HP sched. unfold INT16_MAX.
  induction sched as [| a sched IH]; intros m Hm Hsum.
  - unfold interrupts. simpl. lia.
  - rewrite run_cons.
    destruct (exec_count_writers P a m HP)
      as [Heq | [[Ha Heq] | (Ha & _ & Heq)]].
    + assert (Hle : (interrupts sched <= interrupts (a :: sched))%nat)
        by (unfold interrupts; destruct a; cbn [filter length]; lia).
      specialize (IH (exec P a m)). rewrite Heq in IH. lia.
    + subst a. unfold interrupts in *. cbn [filter length] in *.
      rewrite to_int16_small in Heq
        by (unfold is_int16, INT16_MIN, INT16_MAX; lia).
      specialize (IH (exec P Interrupt m)). rewrite Heq in IH. lia.
    + subst a. unfold interrupts in *. cbn [filter length] in *.
      specialize (IH (exec P MainStep m)). rewrite Heq in IH. lia.
Qed.

(** X13: on a platform whose mode-entry calls do not write the counter,
    as long as no more than 32767 interrupts have been taken since the
    start, the counter is between 0 and the number of interrupts taken,
    whatever [main] did in between: the program never counts a press
    that did not happen. *)
Theorem counter_at_most_presses (P : platform) (sched : list action) :
  platform_keeps_count P ->
  Z.of_nat (interrupts sched) <= INT16_MAX ->
  0 <= SwitchPressCount (mem (run P sched initial_machine))
    <= Z.of_nat (interrupts sched).
Proof.
  intros HP Hn.
  pose proof (run_count_bounded P HP sched initial_machine) as H.
  cbn [initial_machine mem initial_state SwitchPressCount] in H.
  apply H; lia.
Qed.

Lemma counter_at_most_presses_witness :
  0 <= SwitchPressCount
         (mem (run pdl_platform
                 [Interrupt; Interrupt; Interrupt; MainStep; MainStep;
                  MainStep; MainStep; MainStep; Interrupt]
                 initial_machine))
    <= Z.of_nat 4.
Proof.
  apply (counter_at_most_presses pdl_platform
           [Interrupt; Interrupt; Interrupt; MainStep; MainStep;
            MainStep; MainStep; MainStep; Interrupt]).
  - exact pdl_platform_keeps_count.
  - vm_compute. discriminate.
Defined.

Lemma exec_led_on P a m :
  (led_expected_on (pc m) = true -> user_led (mem m) = LED_ON) ->
  led_expected_on (pc (exec P a m)) = true ->
  user_led (mem (exec P a m)) = LED_ON.
Proof.
  destruct m as [p st]. destruct a; cbn [exec pc mem].
  - intros H. exact H.
  - destruct p; cbn [main_step pc mem led_expected_on]; intros H;
      try discriminate; try reflexivity.
    + destruct (_ =? _); cbn [pc mem led_expected_on]; intros _;
        now apply H.
    + destruct (_ =? _); cbn [pc mem led_expected_on]; intros Hon;
        [now apply H | discriminate].
Qed.

(** X14: under every interleaving and on every platform, whenever
    [main] is at one of the two tests of the counter or about to call a
    mode-entry primitive, the LED is on: the interrupt handler cannot
    switch it off in between. *)
Theorem led_on_when_tested (P : platform) (sched : list action) :
  led_expected_on (pc (run P sched initial_machine)) = true ->
  user_led (mem (run P sched initial_machine)) = LED_ON.
Proof.
  assert (H : forall m,
             (led_expected_on (pc m) = true -> user_led (mem m) = LED_ON) ->
             led_expected_on (pc (run P sched m)) = true ->
             user_led (mem (run P sched m)) = LED_ON).
  { induction sched as [| a sched IH]; intros m Hm.
    - exact Hm.
    - rewrite run_cons. apply IH. now apply exec_led_on. }
  apply H. cbn. discriminate.
Qed.

Lemma led_on_when_tested_witness :
  user_led
    (mem (run pdl_platform [MainStep; Interrupt; MainStep; Interrupt]
            initial_machine))
  = LED_ON.
Proof.
  apply (led_on_when_tested pdl_platform
           [MainStep; Interrupt; MainStep; Interrupt]).
  reflexivity.
Defined.

(** ** The start of [main] *)

(** X15: in a build where [CY_ASSERT] stops the processor, [main]
    reaches its loop exactly when [cybsp_init], [Cy_SysInt_Init] and
    both calls of [Cy_SysPm_RegisterCallback] succeed; it has then
    made its six start-up calls in the order of the source, registering
    the sleep handler before the deep sleep handler.  Otherwise the
    loop is never entered. *)
Theorem main_startup_all_or_nothing (A : startup_answers) :
  ((exists calls, main_startup true A = Started calls)
   <-> all_ok A = true) /\
  (forall calls, main_startup true A = Started calls ->
                 calls = full_startup) /\
  (forall P n st,
      main true A P n st
      = if all_ok A then Some (main_loop P n st) else None).
Proof.
  destruct A as [[|] [|] [|] [|]]; cbv [all_ok andb cybsp_init_ok SysInt_Init_ok
    register_sleep_ok register_deep_sleep_ok];
    (split; [split |]);
    try (intros [calls H]; cbv in H; discriminate);
    try discriminate;
    try (intros _; eexists; reflexivity);
    try reflexivity;
    (split; [intros calls H; cbv in H; (discriminate || now inversion H)
            | intros P n st; reflexivity]).
Qed.

(** X16: in a build where [CY_ASSERT] stops the processor, a start that
    stops has made the start-up calls of the source in order up to and
    including the first one that failed, and none after it. *)
Theorem main_startup_stops_at_first_failure
    (A : startup_answers) (calls : list startup_call) :
  main_startup true A = Halted calls ->
  exists failed before rest,
    first_failure A = Some failed /\
    calls = before ++ [failed] /\
    full_startup = calls ++ rest.
Proof.
  destruct A as [[|] [|] [|] [|]]; intros H; cbv in H;
    try discriminate; inversion H; subst; clear H.
  all: cbv [first_failure negb cybsp_init_ok SysInt_Init_ok
            register_sleep_ok register_deep_sleep_ok].
  all: first
    [ exists (Call_RegisterCallback deep_sleep_cb);
      exists [Call_cybsp_init; Call_enable_irq; Call_SysInt_Init 3;
              Call_NVIC_EnableIRQ; Call_RegisterCallback sleep_cb];
      eexists; repeat split; reflexivity
    | exists (Call_RegisterCallback sleep_cb);
      exists [Call_cybsp_init; Call_enable_irq; Call_SysInt_Init 3;
              Call_NVIC_EnableIRQ];
      eexists; repeat split; reflexivity
    | exists (Call_SysInt_Init 3);
      exists [Call_cybsp_init; Call_enable_irq];
      eexists; repeat split; reflexivity
    | exists Call_cybsp_init; exists [];
      eexists; repeat split; reflexivity ].
Qed.

Lemma main_startup_stops_at_first_failure_witness :
  exists failed before rest,
    first_failure (mkAnswers true true false true) = Some failed /\
    [Call_cybsp_init; Call_enable_irq; Call_SysInt_Init 3;
     Call_NVIC_EnableIRQ; Call_RegisterCallback sleep_cb]
    = before ++ [failed] /\
    full_startup
    = [Call_cybsp_init; Call_enable_irq; Call_SysInt_Init 3;
       Call_NVIC_EnableIRQ; Call_RegisterCallback sleep_cb] ++ rest.
Proof.
  apply (main_startup_stops_at_first_failure
           (mkAnswers true true false true)).
  reflexivity.
Defined.
